(** * WhatsAppClientWrapper: session lifecycle, webhook dispatch, voice notes

    Shallow embedding of [src/src/api/WA/WhatsAppClientWrapper.ts], of the
    repository [items_db_repository.ts], of [AudioconvertToOggOpus.ts], and of
    the later wrapper revision kept in [unnamed/part_003] (its second class,
    whose [sendWebhook(id, data)] splits the destination on '|').

    The wrapper object is a record of its three maps plus the two external
    stores it writes to (the [clients] SQL table and the
    [data/wwebjs_auth/session-<id>] folders).  Every async method is a
    computation in a state and exception monad: a JS [throw] keeps the
    mutations made before it, exactly as in the source.  The automation
    engine (whatsapp-web.js), axios and ffmpeg are oracles. *)

From Stdlib Require Import ZArith Ascii String.
From stdpp Require Import base gmap sets list strings.

Open Scope Z_scope.

(** ** Data model *)

(** Error kinds thrown by the wrapper and its collaborators. *)
Inductive WAError :=
  | ENotFound        (* `Cliente con ID ... no encontrado.` *)
  | EConflict        (* `El cliente con ID ... ya existe en la base de datos.` *)
  | ENotReady        (* `... no está listo para enviar mensajes ...` *)
  | EEngine          (* error thrown by a whatsapp-web.js call *)
  | EDb              (* error thrown by knex *)
  | EEmptyInput      (* `El buffer de entrada está vacío ...` *)
  | EConversion.     (* `Error en la conversión con FFmpeg ...` / no output *)

Global Instance WAError_eq_dec : EqDecision WAError.
Proof. solve_decision. Defined.

(** A live whatsapp-web.js [Client]; [info] is [null] until authenticated. *)
Record Client := mkClient { info : option string }.

(** whatsapp-web.js [MessageMedia]. *)
Record MessageMedia := mkMessageMedia {
  mimetype : string; media_data : string; filename : option string }.

(** The [content, options] pair given to [client.sendMessage]. *)
Inductive Content :=
  | TextContent (body : string)
  | MediaContent (media : MessageMedia) (caption : option string)
  | VoiceContent (media : MessageMedia).    (* { sendAudioAsVoice: true } *)

(** A row of the [clients] table. *)
Record ClientModel := mkClientModel { cm_id : string; webhook_url : string }.

Record State := mkState {
  clients  : gmap string Client;   (* this.clients *)
  qrCodes  : gmap string string;   (* this.qrCodes *)
  db       : gmap string string;   (* table clients: id -> webhook_url *)
  authDirs : gset string           (* ids whose session folder exists *)
}.

Definition set_clients (f : gmap string Client -> gmap string Client) (st : State) :=
  mkState (f (clients st)) (qrCodes st) (db st) (authDirs st).
Definition set_qrCodes (f : gmap string string -> gmap string string) (st : State) :=
  mkState (clients st) (f (qrCodes st)) (db st) (authDirs st).
Definition set_db (f : gmap string string -> gmap string string) (st : State) :=
  mkState (clients st) (qrCodes st) (f (db st)) (authDirs st).
Definition set_authDirs (f : gset string -> gset string) (st : State) :=
  mkState (clients st) (qrCodes st) (db st) (f (authDirs st)).

(** ** State and exception monad *)

Inductive Result (A : Type) := Ok (a : A) | Err (e : WAError).
Arguments Ok {A} a.
Arguments Err {A} e.

Definition M (A : Type) := State -> Result A * State.

Global Instance M_ret : MRet M := fun A a st => (Ok a, st).
Global Instance M_bind : MBind M := fun A B k m st =>
  match m st with
  | (Ok a, st') => k a st'
  | (Err e, st') => (Err e, st')
  end.

Definition throw {A} (e : WAError) : M A := fun st => (Err e, st).
Definition modify (f : State -> State) : M unit := fun st => (Ok tt, f st).
Definition gets {A} (f : State -> A) : M A := fun st => (Ok (f st), st).

(** [try { m } catch (error) { h error }] *)
Definition try_catch {A} (m : M A) (h : WAError -> M A) : M A := fun st =>
  match m st with
  | (Ok a, st') => (Ok a, st')
  | (Err e, st') => h e st'
  end.

(** [for (const x of xs) { await f(x); }] *)
Fixpoint for_each {A} (f : A -> M unit) (xs : list A) : M unit :=
  match xs with
  | [] => mret tt
  | x :: xs' => f x ;; for_each f xs'
  end.

(** ** ClientRepository (knex over table [clients]) *)

Module Repo.

(** [createClient]: an insert; the primary key rejects a duplicate id. *)
Definition createClient (c : ClientModel) : M unit := fun st =>
  match db st !! cm_id c with
  | Some _ => (Err EDb, st)
  | None => (Ok tt, set_db (insert (cm_id c) (webhook_url c)) st)
  end.

(** [getClientById]: the row or [null]. *)
Definition getClientById (id : string) : M (option ClientModel) :=
  gets (fun st => mkClientModel id <$> db st !! id).

(** [deleteClient]: [where({ id }).del()], a no-op when there is no row. *)
Definition deleteClient (id : string) : M unit := modify (set_db (delete id)).

(** [listAllClients]: [select('*')]; SQL gives no row order, the model
    lists the rows in the map's order. *)
Definition listAllClients : M (list ClientModel) :=
  gets (fun st => (fun kv => mkClientModel kv.1 kv.2) <$> map_to_list (db st)).

(** [initializeClientsTable]: creates the table if missing. *)
Definition initializeClientsTable : M unit := mret tt.

End Repo.

(** ** The wrapper *)

(** What a whatsapp-web.js [Client] does when the wrapper drives it. *)
Record Engine := mkEngine {
  initialize_ok : string -> bool;          (* does [client.initialize()] resolve for id *)
  initial_info : string -> option string;  (* [client.info] after initialize *)
  destroy_ok : string -> bool;             (* does [client.destroy()] resolve for id *)
  send_ok : string -> string -> Content -> bool
    (* does [client.sendMessage(to, content)] of session id resolve *)
}.

Section Wrapper.

Variable eng : Engine.

(** [private async createClient(id)] (event subscriptions elided: they only
    fire later, from the engine). *)
Definition createClient (id : string) : M unit := fun st =>
  match clients st !! id with
  | Some _ => (Ok tt, st)                 (* console.warn; return *)
  | None =>
      if initialize_ok eng id
      then (Ok tt, set_clients (insert id (mkClient (initial_info eng id))) st)
      else (Err EEngine, st)              (* console.error; throw error *)
  end.

(** [async initialize()] *)
Definition initialize : M unit :=
  Repo.initializeClientsTable ;;
  cs ← Repo.listAllClients ;
  for_each (fun c => createClient (cm_id c)) cs.

(** [async restoreSessions(configs)] *)
Definition restoreSessions (configs : list ClientModel) : M unit :=
  for_each (fun cfg =>
    try_catch
      (existing ← Repo.getClientById (cm_id cfg) ;
       match existing with
       | None => Repo.createClient cfg
       | Some _ => mret tt
       end ;;
       createClient (cm_id cfg))
      (fun _ => mret tt))                 (* console.error only *)
    configs.

(** [async addClient({ id, webhookUrl })] *)
Definition addClient (id webhookUrl : string) : M unit :=
  existing ← Repo.getClientById id ;
  match existing with
  | Some _ => throw EConflict
  | None =>
      try_catch (Repo.createClient (mkClientModel id webhookUrl)) throw ;;
      try_catch (createClient id)
        (fun e => Repo.deleteClient id ;; throw e)
  end.

(** [getClientStatus(id)] *)
Definition getClientStatus (id : string) : M string := fun st =>
  match clients st !! id with
  | None => (Err ENotFound, st)
  | Some c =>
      if decide (is_Some (qrCodes st !! id)) then (Ok "qr"%string, st)
      else match info c with
           | Some _ => (Ok "listo"%string, st)
           | None => (Ok "inicializando"%string, st)
           end
  end.

(** [this.clients.get(id)], throwing when absent. *)
Definition getClientOrThrow (id : string) : M Client := fun st =>
  match clients st !! id with
  | None => (Err ENotFound, st)
  | Some c => (Ok c, st)
  end.

(** [client.sendMessage(to, content, options)] *)
Definition engineSend (id to : string) (c : Content) : M unit :=
  if send_ok eng id to c then mret tt else throw EEngine.

(** [async sendMessage(id, to, message)] *)
Definition sendMessage (id to message : string) : M unit :=
  _ ← getClientOrThrow id ;
  s ← getClientStatus id ;
  if decide (s = "qr"%string) then throw ENotReady
  else try_catch (engineSend id to (TextContent message)) throw.

(** [async sendMedia(id, to, media, caption?)] *)
Definition sendMedia (id to : string) (media : MessageMedia) (caption : option string) : M unit :=
  _ ← getClientOrThrow id ;
  try_catch (engineSend id to (MediaContent media caption)) throw.

(** [getQRCode(id)] *)
Definition getQRCode (id : string) : M (option string) :=
  gets (fun st => qrCodes st !! id).

(** [deleteFolder()] inside [removeClient]: removes the session folder when
    it exists ([fs.rm] is modelled as succeeding). *)
Definition deleteFolder (id : string) : M unit :=
  modify (set_authDirs (fun d => d ∖ {[ id ]})).

(** [client.destroy()] *)
Definition engineDestroy (id : string) : M unit :=
  if destroy_ok eng id then mret tt else throw EEngine.

(** [async removeClient(id)] *)
Definition removeClient (id : string) : M unit := fun st =>
  match clients st !! id with
  | Some _ =>
      try_catch
        (engineDestroy id ;;
         modify (set_clients (delete id)) ;;
         Repo.deleteClient id ;;
         modify (set_qrCodes (delete id)) ;;
         deleteFolder id)
        throw st
  | None => (deleteFolder id ;; throw ENotFound) st
  end.

End Wrapper.

(** ** Webhook dispatch, [src/src] revision

    [private async sendWebhook(url, data)]: up to [maxRetries] POSTs to [url],
    sleeping [1000 * attempt] ms after a failed attempt, giving up silently. *)

Module WebhookRetry.

(** Observable actions of one [sendWebhook] call. *)
Inductive WebhookAct :=
  | Post (url : string) (attempt : nat)     (* await axios.post(url, data) *)
  | LogAttemptFailed (attempt : nat)        (* `Intento ${attempt} fallido ...` *)
  | LogGaveUp                               (* `Fallo al enviar webhook tras ...` *)
  | Sleep (ms : Z).                         (* setTimeout(resolve, 1000 * attempt) *)

Definition maxRetries : nat := 5.

Section Send.

(** Does [axios.post(url, data)] resolve at the given attempt. *)
Variable post : string -> nat -> bool.

(** The [for (let attempt = 1; attempt <= maxRetries; attempt++)] loop; the
    fuel bounds the iterations. *)
Fixpoint sendWebhook_loop (url : string) (fuel attempt : nat) : list WebhookAct :=
  match fuel with
  | O => []
  | S fuel' =>
      if Nat.leb attempt maxRetries then
        Post url attempt ::
        (if post url attempt then []                     (* return *)
         else LogAttemptFailed attempt ::
              (if Nat.eqb attempt maxRetries then [LogGaveUp]   (* return *)
               else Sleep (1000 * Z.of_nat attempt) ::
                    sendWebhook_loop url fuel' (S attempt)))
      else []
  end.

(** The call never throws ([// throw error;] is commented out). *)
Definition sendWebhook (url : string) : Result unit * list WebhookAct :=
  (Ok tt, sendWebhook_loop url maxRetries 1).

(** An event handler: [const webhookUrl = await this.getWebhookUrl(id);
    if (webhookUrl) { try { await this.sendWebhook(webhookUrl, ...) } catch {..} }]. *)
Definition notify (id : string) : M (list WebhookAct) :=
  row ← Repo.getClientById id ;
  match row with
  | Some c =>
      if decide (webhook_url c = ""%string) then mret []
      else match sendWebhook (webhook_url c) with
           | (_, acts) => mret acts
           end
  | None => mret []
  end.

End Send.

(** The URLs POSTed to by a trace. *)
Definition posted_urls (acts : list WebhookAct) : list string :=
  omap (fun a => match a with Post u _ => Some u | _ => None end) acts.

Definition post_count (acts : list WebhookAct) : nat := length (posted_urls acts).

Definition sleeps (acts : list WebhookAct) : list Z :=
  omap (fun a => match a with Sleep ms => Some ms | _ => None end) acts.

End WebhookRetry.

(** ** Webhook dispatch, [unnamed/part_003] revision

    [private async sendWebhook(id, data)]: resolves the destination of
    session [id], splits it on '|', and starts one [axios.post] per URL with
    [urls.forEach(async (url) => { try { .. } catch { .. } })]. *)

Module WebhookFanout.

(** JS [s.split(c)] for a one-character separator. *)
Fixpoint split_on (c : ascii) (s : string) : list string :=
  match s with
  | EmptyString => [EmptyString]
  | String a s' =>
      match split_on c s' with
      | [] => []
      | cur :: rest =>
          if Ascii.eqb a c then EmptyString :: cur :: rest
          else String a cur :: rest
      end
  end.

(** The outcome of one forEach task: its URL and whether its POST resolved
    (logged response) or rejected (logged failure). *)
Record Delivery := mkDelivery { d_url : string; d_ok : bool }.

Section Send.

(** Does [axios.post(url, data)] resolve. *)
Variable post : string -> bool.

Definition sendWebhook (id : string) : M (list Delivery) := fun st =>
  match clients st !! id with
  | None => (Ok [], st)                        (* thrown, caught, logged *)
  | Some _ =>
      match db st !! id with
      | None => (Ok [], st)                    (* thrown, caught, logged *)
      | Some w =>
          if decide (w = ""%string) then (Ok [], st)
          else (Ok ((fun u => mkDelivery u (post u)) <$> split_on "|"%char w), st)
      end
  end.

End Send.

End WebhookFanout.

(** ** AudioconvertToOggOpus.ts *)

Module Audio.

Fixpoint is_prefix (p s : string) : bool :=
  match p, s with
  | EmptyString, _ => true
  | String a p', String b s' => Ascii.eqb a b && is_prefix p' s'
  | String _ _, EmptyString => false
  end.

Fixpoint drop_chars (n : nat) (s : string) : string :=
  match n, s with
  | O, _ => s
  | S n', String _ s' => drop_chars n' s'
  | S _, EmptyString => EmptyString
  end.

(** JS [.] does not match a line terminator. *)
Definition is_line_terminator (a : ascii) : bool :=
  Ascii.eqb a "010"%char || Ascii.eqb a "013"%char.

(** Matching [.*;base64,] greedily at the front of [r]: the text after the
    last [;base64,] reachable without crossing a line terminator. *)
Fixpoint after_last_marker (r : string) : option string :=
  let here := if is_prefix ";base64," r then Some (drop_chars 8 r) else None in
  match r with
  | EmptyString => here
  | String a r' =>
      if is_line_terminator a then here
      else match after_last_marker r' with
           | Some q => Some q
           | None => here
           end
  end.

(** [cleanBase64Data]: [base64Data.replace(/^data:.*;base64,/, '')]. *)
Definition cleanBase64Data (s : string) : string :=
  if is_prefix "data:" s then
    match after_last_marker (drop_chars 5 s) with
    | Some q => q
    | None => s
    end
  else s.

(** The value of a base64 character (Node accepts both alphabets). *)
Definition b64_value (c : ascii) : option Z :=
  let n := Z.of_nat (nat_of_ascii c) in
  if (65 <=? n) && (n <=? 90) then Some (n - 65)
  else if (97 <=? n) && (n <=? 122) then Some (n - 71)
  else if (48 <=? n) && (n <=? 57) then Some (n + 4)
  else if (n =? 43) || (n =? 45) then Some 62
  else if (n =? 47) || (n =? 95) then Some 63
  else None.

(** Node skips characters outside the alphabet and stops at '='. *)
Fixpoint b64_sextets (s : string) : list Z :=
  match s with
  | EmptyString => []
  | String c s' =>
      if Ascii.eqb c "="%char then []
      else match b64_value c with
           | Some v => v :: b64_sextets s'
           | None => b64_sextets s'
           end
  end.

Fixpoint b64_pack (l : list Z) : list Z :=
  match l with
  | a :: b :: c :: d :: r =>
      Z.lor (Z.shiftl a 2) (Z.shiftr b 4)
      :: Z.lor (Z.shiftl (Z.land b 15) 4) (Z.shiftr c 2)
      :: Z.lor (Z.shiftl (Z.land c 3) 6) d
      :: b64_pack r
  | [a; b; c] =>
      [Z.lor (Z.shiftl a 2) (Z.shiftr b 4);
       Z.lor (Z.shiftl (Z.land b 15) 4) (Z.shiftr c 2)]
  | [a; b] => [Z.lor (Z.shiftl a 2) (Z.shiftr b 4)]
  | _ => []
  end.

(** [Buffer.from(s, 'base64')] *)
Definition Buffer_from_base64 (s : string) : list Z := b64_pack (b64_sextets s).

Definition b64_alphabet : string :=
  "ABCDEFGHIJKLMNOPQRSTUVWXYZabcdefghijklmnopqrstuvwxyz0123456789+/".

Definition b64_char (v : Z) : string :=
  match String.get (Z.to_nat v) b64_alphabet with
  | Some c => String c EmptyString
  | None => EmptyString
  end.

(** [buffer.toString('base64')] *)
Fixpoint b64_encode (l : list Z) : string :=
  match l with
  | a :: b :: c :: r =>
      String.append (b64_char (Z.shiftr a 2))
      (String.append (b64_char (Z.lor (Z.shiftl (Z.land a 3) 4) (Z.shiftr b 4)))
      (String.append (b64_char (Z.lor (Z.shiftl (Z.land b 15) 2) (Z.shiftr c 6)))
      (String.append (b64_char (Z.land c 63)) (b64_encode r))))
  | [a; b] =>
      String.append (b64_char (Z.shiftr a 2))
      (String.append (b64_char (Z.lor (Z.shiftl (Z.land a 3) 4) (Z.shiftr b 4)))
      (String.append (b64_char (Z.shiftl (Z.land b 15) 2)) "="))
  | [a] =>
      String.append (b64_char (Z.shiftr a 2))
      (String.append (b64_char (Z.shiftl (Z.land a 3) 4)) "==")
  | [] => EmptyString
  end.

(** [formatMap[inputMimeType]] *)
Definition formatMap (m : string) : option string :=
  if decide (m = "audio/mp3"%string) then Some "mp3"%string
  else if decide (m = "audio/mpeg"%string) then Some "mp3"%string
  else if decide (m = "audio/wav"%string) then Some "wav"%string
  else if decide (m = "audio/x-wav"%string) then Some "wav"%string
  else None.

Section Convert.

(** The ffmpeg pipeline (libopus in ogg): format hint and input bytes to
    output bytes, or [None] on its ['error'] event. *)
Variable ffmpeg : option string -> list Z -> option (list Z).

(** [convertToOggOpus(inputMimeType, base64Data)] *)
Definition convertToOggOpus (inputMimeType base64Data : string) : Result string :=
  let cleanedBase64 := cleanBase64Data base64Data in
  let inputBuffer := Buffer_from_base64 cleanedBase64 in
  match inputBuffer with
  | [] => Err EEmptyInput
  | _ =>
      match ffmpeg (formatMap inputMimeType) inputBuffer with
      | None => Err EConversion
      | Some [] => Err EConversion        (* getContents() is false when empty *)
      | Some out => Ok (b64_encode out)
      end
  end.

End Convert.

End Audio.

Section Voice.

Variable eng : Engine.
Variable ffmpeg : option string -> list Z -> option (list Z).

(** [public async sendAudioAsVoice(id, to, mimeType, base64)]: the source
    calls [convertToOggOpus(base64, mimeType)]. *)
Definition sendAudioAsVoice (id to mimeType base64 : string) : M unit :=
  _ ← getClientOrThrow id ;
  try_catch
    (match Audio.convertToOggOpus ffmpeg base64 mimeType with
     | Err e => throw e
     | Ok convertedBase64 =>
         engineSend eng id to
           (VoiceContent (mkMessageMedia "audio/ogg" convertedBase64 None))
     end)
    throw.

(** The operation as the spec describes it: the audio payload is transcoded
    with [mimeType] as its hint, [convertToOggOpus(mimeType, base64)]. *)
Definition sendVoiceNote_spec (id to mimeType base64 : string) : M unit :=
  _ ← getClientOrThrow id ;
  try_catch
    (match Audio.convertToOggOpus ffmpeg mimeType base64 with
     | Err e => throw e
     | Ok convertedBase64 =>
         engineSend eng id to
           (VoiceContent (mkMessageMedia "audio/ogg" convertedBase64 None))
     end)
    throw.

End Voice.

(** ** Concrete inputs *)

Definition regAB : gmap string string :=
  <["A" := "https://a/x"]> (<["B" := "https://b/y"]> ∅).

(** An engine whose [client.initialize()] rejects for session "A" only. *)
Definition eng_A_fails : Engine :=
  mkEngine (fun id => negb (bool_decide (id = "A"%string)))
           (fun _ => None) (fun _ => true) (fun _ _ _ => true).

(** An engine on which every call resolves. *)
Definition eng_ok : Engine :=
  mkEngine (fun _ => true) (fun _ => None) (fun _ => true) (fun _ _ _ => true).

(** An engine on which [client.initialize()] and [client.destroy()] reject. *)
Definition eng_broken : Engine :=
  mkEngine (fun _ => false) (fun _ => None) (fun _ => false) (fun _ _ _ => true).

Definition st_restart : State := mkState ∅ ∅ regAB ∅.

(** ** Proof tools *)

Ltac unfold_monad :=
  unfold mbind, M_bind, mret, M_ret, throw, modify, gets, try_catch in *.

Create HintDb wrapper_simpl.
#[local] Hint Unfold Repo.createClient Repo.getClientById Repo.deleteClient
  getClientOrThrow engineSend engineDestroy deleteFolder : wrapper_simpl.

(** [createClient] never touches the table. *)
Lemma createClient_db (eng : Engine) (id : string) (st : State) :
  db (createClient eng id st).2 = db st.
Proof.
  unfold createClient.
  destruct (clients st !! id); [done|].
  by destruct (initialize_ok eng id).
Qed.

(** ** C1: batch restoration *)

(** C1 (code_bug). [initialize()] restores the rows in order with
    [await this.createClient(client.id)] and no [try]: on the table
    {A, B} with A's [client.initialize()] rejecting, the whole call rejects,
    B is never started and [getClientStatus("B")] throws NotFound; the sibling
    [restoreSessions] catches per session and does start B. *)
Lemma initialize_A_fails_B_not_started :
  (initialize eng_A_fails st_restart).1 = Err EEngine /\
  clients (initialize eng_A_fails st_restart).2 !! "B"%string = None /\
  (getClientStatus "B" (initialize eng_A_fails st_restart).2).1 = Err ENotFound /\
  (getClientStatus "B"
     (restoreSessions eng_A_fails
        [mkClientModel "A" "https://a/x"; mkClientModel "B" "https://b/y"]
        st_restart).2).1 = Ok "inicializando"%string.
Proof. vm_compute. repeat split. Qed.

(** ** C3: addClient rolls back *)

(** C3. When no row exists for [id], the insert succeeds, and
    [createClient(id)] then throws [e], [addClient] rethrows [e] and the
    table is left exactly as before the call: no row for [id]. *)
Theorem addClient_rolls_back (eng : Engine) (id url : string) (st : State) (e : WAError)
  (Hnew : db st !! id = None)
  (Hstart : (createClient eng id (set_db (insert id url) st)).1 = Err e) :
  (addClient eng id url st).1 = Err e /\
  db (addClient eng id url st).2 = db st /\
  db (addClient eng id url st).2 !! id = None.
Proof.
  unfold addClient; unfold_monad; autounfold with wrapper_simpl; unfold_monad.
  simpl. rewrite Hnew. simpl. rewrite Hnew.
  pose proof (createClient_db eng id (set_db (insert id url) st)) as Hdb.
  destruct (createClient eng id (set_db (insert id url) st)) as [r st'] eqn:Ec.
  simpl in Hstart, Hdb. subst r. simpl.
  rewrite Hdb. simpl. rewrite delete_insert_id by done.
  split; [done|]. split; [done|]. done.
Qed.

Lemma addClient_rolls_back_witness :
  db (mkState ∅ ∅ ∅ ∅) !! "A"%string = None /\
  (createClient eng_broken "A" (set_db (insert "A"%string "https://a/x"%string) (mkState ∅ ∅ ∅ ∅))).1
    = Err EEngine /\
  db (addClient eng_broken "A" "https://a/x" (mkState ∅ ∅ ∅ ∅)).2 !! "A"%string = None.
Proof.
  split; [reflexivity|]. split; [reflexivity|].
  apply (addClient_rolls_back eng_broken "A" "https://a/x" (mkState ∅ ∅ ∅ ∅) EEngine);
    reflexivity.
Defined.

(** ** C4: removeClient without a live handle *)

Definition st_row_no_handle : State :=
  mkState ∅ ∅ (<["A" := "https://a/x"]> ∅) {[ "A"%string ]}.

(** C4 (counterexample). Session "A" has a row but no live handle:
    [removeClient("A")] throws NotFound and the row is still in the table,
    so it neither deletes the row nor reports success. *)
Lemma removeClient_no_handle_keeps_row :
  (removeClient eng_ok "A" st_row_no_handle).1 = Err ENotFound /\
  db (removeClient eng_ok "A" st_row_no_handle).2 !! "A"%string = Some "https://a/x"%string.
Proof. vm_compute. split; reflexivity. Qed.

(** C4 (amended). With no live handle for [id], [removeClient] only erases
    the session folder of [id]; the table, the handle map and the QR cache are
    untouched, and it always throws NotFound, whether or not a row exists. *)
Theorem removeClient_no_handle (eng : Engine) (id : string) (st : State)
  (Hnone : clients st !! id = None) :
  removeClient eng id st = (Err ENotFound, set_authDirs (fun d => d ∖ {[ id ]}) st).
Proof.
  unfold removeClient. rewrite Hnone.
  unfold deleteFolder; unfold_monad. reflexivity.
Qed.

Lemma removeClient_no_handle_witness :
  clients st_row_no_handle !! "A"%string = None /\
  removeClient eng_ok "A" st_row_no_handle
    = (Err ENotFound, set_authDirs (fun d => d ∖ {[ "A"%string ]}) st_row_no_handle).
Proof.
  split; [reflexivity|].
  apply removeClient_no_handle. reflexivity.
Defined.

(** ** C6: status with a null [client.info] *)

Definition st_handle_no_info : State :=
  mkState (<["A" := mkClient None]> ∅) ∅ (<["A" := "https://a/x"]> ∅) ∅.

(** C6 (counterexample). A live handle whose [info] is [null] and no cached
    QR: [getClientStatus] answers "inicializando", not "qr". *)
Lemma getClientStatus_null_info_not_qr :
  (getClientStatus "A" st_handle_no_info).1 = Ok "inicializando"%string /\
  (getClientStatus "A" st_handle_no_info).1 <> Ok "qr"%string.
Proof. vm_compute. split; [reflexivity | discriminate]. Qed.

(** C6 (amended). With a live handle and no cached QR, the status is
    "listo" when [client.info] is set and "inicializando" when it is [null];
    the call changes nothing. *)
Theorem getClientStatus_no_qr (id : string) (st : State) (c : Client)
  (Hc : clients st !! id = Some c) (Hq : qrCodes st !! id = None) :
  getClientStatus id st =
    (Ok (match info c with
         | Some _ => "listo"%string
         | None => "inicializando"%string
         end), st).
Proof.
  unfold getClientStatus. rewrite Hc, Hq.
  rewrite decide_False by (intros [? ?]; discriminate).
  by destruct (info c).
Qed.

Lemma getClientStatus_no_qr_witness :
  clients st_handle_no_info !! "A"%string = Some (mkClient None) /\
  qrCodes st_handle_no_info !! "A"%string = None /\
  getClientStatus "A" st_handle_no_info = (Ok "inicializando"%string, st_handle_no_info).
Proof.
  split; [reflexivity|]. split; [reflexivity|].
  apply (getClientStatus_no_qr "A" st_handle_no_info (mkClient None)); reflexivity.
Defined.

(** ** C8: sendMedia has no readiness check *)

(** C8. [sendMedia] throws NotFound exactly when there is no handle and
    otherwise only what [client.sendMessage] throws; it never throws
    NotReady, whatever the QR cache holds, while [sendMessage] throws NotReady
    whenever a QR is cached for a live session. *)
Theorem sendMedia_no_readiness_check (eng : Engine) (id to body : string)
  (media : MessageMedia) (caption : option string) (st : State) :
  (sendMedia eng id to media caption st).1 =
    match clients st !! id with
    | None => Err ENotFound
    | Some _ => if send_ok eng id to (MediaContent media caption) then Ok tt else Err EEngine
    end /\
  (sendMedia eng id to media caption st).1 <> Err ENotReady /\
  (sendMessage eng id to body st).1 =
    match clients st !! id with
    | None => Err ENotFound
    | Some _ =>
        if decide (is_Some (qrCodes st !! id)) then Err ENotReady
        else if send_ok eng id to (TextContent body) then Ok tt else Err EEngine
    end.
Proof.
  unfold sendMedia, sendMessage, getClientStatus.
  unfold_monad; autounfold with wrapper_simpl; unfold_monad.
  destruct (clients st !! id) as [c|] eqn:Hc; simpl.
  - rewrite Hc.
    destruct (send_ok eng id to (MediaContent media caption)); simpl;
      (split; [reflexivity | split; [discriminate|]]);
      (destruct (decide (is_Some (qrCodes st !! id))); simpl;
       [reflexivity | destruct (info c); simpl; destruct (send_ok eng id to (TextContent body)); reflexivity]).
  - repeat split; discriminate.
Qed.

(** ** C9: removeClient when [client.destroy()] rejects *)

Definition st_live : State :=
  mkState (<["A" := mkClient None]> ∅) (<["A" := "qr-data"]> ∅)
          (<["A" := "https://a/x"]> ∅) {[ "A"%string ]}.

(** C9. For a live handle whose [client.destroy()] rejects, [removeClient]
    rethrows and the state is exactly the one before the call: handle map,
    QR cache, table and session folder unchanged. *)
Theorem removeClient_destroy_fails (eng : Engine) (id : string) (st : State) (c : Client)
  (Hc : clients st !! id = Some c) (Hd : destroy_ok eng id = false) :
  removeClient eng id st = (Err EEngine, st).
Proof.
  unfold removeClient. rewrite Hc.
  unfold_monad; autounfold with wrapper_simpl; unfold_monad.
  rewrite Hd. reflexivity.
Qed.

Lemma removeClient_destroy_fails_witness :
  clients st_live !! "A"%string = Some (mkClient None) /\
  destroy_ok eng_broken "A" = false /\
  removeClient eng_broken "A" st_live = (Err EEngine, st_live).
Proof.
  split; [reflexivity|]. split; [reflexivity|].
  apply (removeClient_destroy_fails eng_broken "A" st_live (mkClient None)); reflexivity.
Defined.

(** ** C10: getQRCode *)

(** C10. [getQRCode(id)] answers the cached QR of [id] (or undefined), never
    throws, and leaves the whole state unchanged, for every id. *)
Theorem getQRCode_total_read_only (id : string) (st : State) :
  getQRCode id st = (Ok (qrCodes st !! id), st).
Proof. reflexivity. Qed.

(** ** C5: bounded retry of one webhook POST *)

Module WebhookRetryFacts.
Import WebhookRetry.

Definition post_attempts (acts : list WebhookAct) : list nat :=
  omap (fun a => match a with Post _ k => Some k | _ => None end) acts.

Lemma sendWebhook_loop_posts_url (post : string -> nat -> bool) (url : string) (fuel attempt : nat) :
  Forall (eq url) (posted_urls (sendWebhook_loop post url fuel attempt)).
Proof.
  revert attempt. induction fuel as [|fuel IH]; intros attempt; simpl; [constructor|].
  destruct (Nat.leb attempt maxRetries); simpl; [|constructor].
  constructor; [reflexivity|].
  destruct (post url attempt); simpl; [constructor|].
  destruct (Nat.eqb attempt maxRetries); simpl; [constructor|].
  apply IH.
Qed.

Lemma notify_state (post : string -> nat -> bool) (id : string) (st : State) :
  (notify post id st).2 = st.
Proof.
  unfold notify, Repo.getClientById; unfold_monad. simpl.
  destruct (db st !! id) as [w|]; simpl; [|reflexivity].
  destruct (decide (w = ""%string)); reflexivity.
Qed.

Ltac leaf n :=
  exists n; simpl;
  repeat split; try lia;
  try (intros k Hk; destruct k as [|[|[|[|[|k]]]]]; first [lia | assumption]);
  try (intros i a b Ha Hb;
       do 5 (destruct i as [|i]; simpl in Ha, Hb;
             [ try discriminate; injection Ha as <-; injection Hb as <-; lia | ]);
       simpl in Ha; discriminate);
  try (left; split; [assumption | reflexivity]);
  try (right; split; [reflexivity | split; [assumption | reflexivity]]).

(** C5. One [sendWebhook(url, data)] makes n POSTs to [url], with
    1 <= n <= 5, at attempts 1..n; every attempt before the n-th failed; it
    sleeps 1000*k ms after each failed attempt k < n, so the delays
    (1000, 2000, ...) strictly increase; it stops at the first success or,
    after the 5th failure, logs and returns: it never throws, and the event
    handler calling it leaves the wrapper's state (maps and table) unchanged,
    so nothing is stored for a replay. *)
Theorem sendWebhook_bounded_retry (post : string -> nat -> bool) (url : string) :
  (sendWebhook post url).1 = Ok tt /\
  (forall id st, (notify post id st).2 = st /\ exists acts, (notify post id st).1 = Ok acts) /\
  exists n, (1 <= n <= maxRetries)%nat /\
    let acts := (sendWebhook post url).2 in
    posted_urls acts = repeat url n /\
    post_attempts acts = seq 1 n /\
    sleeps acts = ((fun k => 1000 * Z.of_nat k) <$> seq 1 (n - 1)) /\
    (forall i a b, sleeps acts !! i = Some a -> sleeps acts !! S i = Some b -> a < b) /\
    (forall k, (1 <= k < n)%nat -> post url k = false) /\
    ((post url n = true /\ last acts = Some (Post url n)) \/
     (n = maxRetries /\ post url n = false /\ last acts = Some LogGaveUp)).
Proof.
  split; [reflexivity|].
  split.
  { intros id st. split; [apply notify_state|].
    unfold notify, Repo.getClientById; unfold_monad. simpl.
    destruct (db st !! id) as [w|]; simpl; [|eauto].
    destruct (decide (w = ""%string)); simpl; eauto. }
  unfold sendWebhook, maxRetries; simpl.
  destruct (post url 1%nat) eqn:E1; [leaf 1%nat|].
  destruct (post url 2%nat) eqn:E2; [leaf 2%nat|].
  destruct (post url 3%nat) eqn:E3; [leaf 3%nat|].
  destruct (post url 4%nat) eqn:E4; [leaf 4%nat|].
  destruct (post url 5%nat) eqn:E5; leaf 5%nat.
Qed.

End WebhookRetryFacts.

(** ** C2: fan-out over a '|'-separated destination *)

Definition st_pipe : State :=
  mkState (<["A" := mkClient None]> ∅) ∅
          (<["A" := "https://a/x|https://b/y"]> ∅) ∅.

(** axios: "https://b/y" accepts every POST, everything else rejects. *)
Definition post_only_b (u : string) (_ : nat) : bool := bool_decide (u = "https://b/y"%string).

(** C2 (counterexample). With the [src/src] dispatcher, the destination
    "https://a/x|https://b/y" is POSTed verbatim five times and
    "https://b/y" never receives a POST. *)
Lemma notify_pipe_no_fanout :
  WebhookRetry.posted_urls
    (match WebhookRetry.notify post_only_b "A" st_pipe with
     | (Ok acts, _) => acts
     | (Err _, _) => []
     end) = repeat "https://a/x|https://b/y"%string 5 /\
  "https://b/y"%string ∉
    WebhookRetry.posted_urls
      (match WebhookRetry.notify post_only_b "A" st_pipe with
       | (Ok acts, _) => acts
       | (Err _, _) => []
       end).
Proof.
  split; [vm_compute; reflexivity|].
  intros Hin. apply list_elem_of_In in Hin. vm_compute in Hin.
  repeat (destruct Hin as [Hin|Hin]; [discriminate|]). exact Hin.
Qed.

(** C2 (amended). The [unnamed/part_003] dispatcher [sendWebhook(id, data)],
    for a session with a live handle and a non-empty destination [w], starts
    exactly one POST (no retry) per piece of [w.split('|')], in order, and
    the outcome recorded for each piece is that piece's own POST outcome, so
    a failing URL does not suppress another.  The [src/src] dispatcher
    [sendWebhook(url, data)] does not split: every POST goes to [w] itself. *)
Theorem webhook_fanout_split (post1 : string -> bool) (post : string -> nat -> bool)
  (st : State) (id w : string) (c : Client)
  (Hc : clients st !! id = Some c) (Hw : db st !! id = Some w) (Hne : w <> ""%string) :
  WebhookFanout.sendWebhook post1 id st =
    (Ok ((fun u => WebhookFanout.mkDelivery u (post1 u)) <$> WebhookFanout.split_on "|"%char w), st) /\
  (forall post1', WebhookFanout.d_url <$>
     (match (WebhookFanout.sendWebhook post1' id st).1 with Ok ds => ds | Err _ => [] end)
     = WebhookFanout.split_on "|"%char w) /\
  exists acts, WebhookRetry.notify post id st = (Ok acts, st) /\
    Forall (eq w) (WebhookRetry.posted_urls acts).
Proof.
  split; [|split].
  - unfold WebhookFanout.sendWebhook. rewrite Hc, Hw, decide_False by done. reflexivity.
  - intros post1'. unfold WebhookFanout.sendWebhook. rewrite Hc, Hw, decide_False by done.
    simpl. rewrite <- list_fmap_compose. apply list_fmap_id.
  - unfold WebhookRetry.notify, Repo.getClientById; unfold_monad. simpl.
    rewrite Hw. simpl. rewrite decide_False by done.
    eexists. split; [reflexivity|].
    exact (WebhookRetryFacts.sendWebhook_loop_posts_url post w 5 1).
Qed.

Lemma webhook_fanout_split_witness :
  clients st_pipe !! "A"%string = Some (mkClient None) /\
  db st_pipe !! "A"%string = Some "https://a/x|https://b/y"%string /\
  WebhookFanout.sendWebhook (fun u => bool_decide (u = "https://b/y"%string)) "A" st_pipe =
    (Ok [WebhookFanout.mkDelivery "https://a/x" false;
         WebhookFanout.mkDelivery "https://b/y" true], st_pipe).
Proof.
  split; [reflexivity|]. split; [reflexivity|].
  destruct (webhook_fanout_split (fun u => bool_decide (u = "https://b/y"%string))
              post_only_b st_pipe "A" "https://a/x|https://b/y" (mkClient None)
              eq_refl eq_refl ltac:(discriminate)) as [H _].
  rewrite H. vm_compute. reflexivity.
Defined.

(** ** C7: the voice-note transcoding input *)

(** ffmpeg that transcodes the ID3 mp3 header bytes ("SUQz") when told the
    input is mp3, and fails on anything else. *)
Definition ffmpeg_mp3 (hint : option string) (bytes : list Z) : option (list Z) :=
  if bool_decide (hint = Some "mp3"%string /\ bytes = [73; 68; 51]) then Some [79; 103; 103]
  else None.

Definition st_ready : State :=
  mkState (<["A" := mkClient (Some "me")]> ∅) ∅ (<["A" := "https://a/x"]> ∅) ∅.

(** C7 (code_bug). [sendAudioAsVoice(id, to, mimeType, base64)] calls
    [convertToOggOpus(base64, mimeType)] while the adapter's signature is
    [(inputMimeType, base64Data)]: in general the wrapper is the spec's
    operation with the two arguments exchanged; on "audio/mp3" with payload
    "data:audio/mp3;base64,SUQz" the transcoder receives the bytes of
    "audio/mp3" and no hint and fails, where the spec's operation sends. *)
Lemma sendAudioAsVoice_swaps_arguments :
  (forall eng ff id to mimeType base64 st,
     sendAudioAsVoice eng ff id to mimeType base64 st =
     sendVoiceNote_spec eng ff id to base64 mimeType st) /\
  Audio.Buffer_from_base64 (Audio.cleanBase64Data "audio/mp3") = [106; 231; 98; 163; 249; 169] /\
  (sendAudioAsVoice eng_ok ffmpeg_mp3 "A" "to" "audio/mp3" "data:audio/mp3;base64,SUQz" st_ready).1
    = Err EConversion /\
  (sendVoiceNote_spec eng_ok ffmpeg_mp3 "A" "to" "audio/mp3" "data:audio/mp3;base64,SUQz" st_ready).1
    = Ok tt.
Proof.
  split; [reflexivity|].
  vm_compute. repeat split.
Qed.

(** ** Further operations of the wrapper *)

(** [ClientRepository.updateWebhook(id, webhookUrl)]:
    [where({ id }).update({ webhook_url, updated_at })], a no-op when no row
    matches (timestamps are not modelled). *)
Definition updateWebhook (id webhookUrl : string) : M unit :=
  modify (set_db (fun m => match m !! id with
                           | Some _ => <[id := webhookUrl]> m
                           | None => m
                           end)).

(** A [listClients()] entry. *)
Record ClientListEntry := mkClientListEntry {
  le_id : string; le_webhookUrl : string; le_qr : option string; le_status : string }.

(** [array.map(f)] with an [f] that may throw: the first throw propagates. *)
Fixpoint map_M {A B} (f : A -> M B) (xs : list A) : M (list B) :=
  match xs with
  | [] => mret []
  | x :: xs' => y ← f x ; ys ← map_M f xs' ; mret (y :: ys)
  end.

(** [async getWebhookUrl(id)] *)
Definition getWebhookUrl (id : string) : M (option string) :=
  row ← Repo.getClientById id ;
  mret (webhook_url <$> row).

(** [async getClientsInfo()] *)
Definition getClientsInfo : M (list ClientModel) := Repo.listAllClients.

(** [async listClients()] *)
Definition listClients : M (list ClientListEntry) :=
  infos ← getClientsInfo ;
  map_M (fun c =>
    qr ← getQRCode (cm_id c) ;
    s ← getClientStatus (cm_id c) ;
    mret (mkClientListEntry (cm_id c) (webhook_url c) qr s)) infos.

(** [async setWebhook(id, url)] *)
Definition setWebhook (id url : string) : M unit :=
  _ ← getClientOrThrow id ;
  try_catch (updateWebhook id url) throw.

(** The ['qr'] handler of [createClient] ([src/src]); [qrBase64] is the
    result of [qrcode.toDataURL(qr)]. *)
Definition onQr (post : string -> nat -> bool) (id qrBase64 : string)
  : M (list WebhookRetry.WebhookAct) :=
  modify (set_qrCodes (insert id qrBase64)) ;;
  WebhookRetry.notify post id.

(** The ['ready'] handler of [createClient] ([src/src]). *)
Definition onReady (post : string -> nat -> bool) (id : string)
  : M (list WebhookRetry.WebhookAct) :=
  modify (set_qrCodes (delete id)) ;;
  WebhookRetry.notify post id.

(** What [reactToMessage] sees of whatsapp-web.js. *)
Record ChatEngine := mkChatEngine {
  (* [client.getChatById(contactId)] of session id, as the serialized ids of
     [chat.fetchMessages({ limit: 50 })]; [None]: no chat *)
  fetchLast50 : string -> string -> option (list string);
  (* does [message.react(reaction)] resolve *)
  react_ok : string -> string -> bool
}.

(** [public async reactToMessage({ id, contactId, messageId, reaction })]
    ([unnamed/part_003]).  The source returns [void]; the model's result is
    the message [react] resolved on, if any. *)
Definition reactToMessage (ce : ChatEngine) (id contactId messageId reaction : string)
  : M (option string) :=
  try_catch
    (_ ← getClientOrThrow id ;
     try_catch
       (match fetchLast50 ce id contactId with
        | None => throw ENotFound                 (* No se encontró el chat *)
        | Some msgs =>
            if decide (messageId ∈ msgs) then
              (if react_ok ce messageId reaction then mret (Some messageId)
               else throw EEngine)
            else throw ENotFound                  (* messages ... no encontrado *)
        end)
       throw)
    (fun _ => mret None).                         (* console.error(`Intento fallido`) *)

(** [String.prototype.split] inverse: [list.join(c)]. *)
Fixpoint join_on (c : ascii) (l : list string) : string :=
  match l with
  | [] => EmptyString
  | [x] => x
  | x :: l' => String.append x (String c (join_on c l'))
  end.

Fixpoint string_has (c : ascii) (s : string) : bool :=
  match s with
  | EmptyString => false
  | String a s' => Ascii.eqb a c || string_has c s'
  end.

(** ** Lifecycle facts *)

Module LifecycleFacts.

Lemma createClient_clients_mono (eng : Engine) (id j : string) (st : State) :
  is_Some (clients st !! j) -> is_Some (clients (createClient eng id st).2 !! j).
Proof.
  unfold createClient. destruct (clients st !! id) eqn:E; [done|].
  destruct (initialize_ok eng id); simpl; [|done].
  destruct (decide (j = id)) as [->|Hne]; [rewrite lookup_insert_eq; eauto|].
  rewrite lookup_insert_ne by congruence. done.
Qed.

Lemma createClient_starts (eng : Engine) (id : string) (st : State) :
  initialize_ok eng id = true \/ is_Some (clients st !! id) ->
  (createClient eng id st).1 = Ok tt /\ is_Some (clients (createClient eng id st).2 !! id).
Proof.
  intros H. unfold createClient. destruct (clients st !! id) eqn:E.
  - simpl. rewrite E. eauto.
  - destruct H as [H|[? H]]; [|congruence]. rewrite H. simpl.
    rewrite lookup_insert_eq. eauto.
Qed.

Lemma createClient_error_state (eng : Engine) (id : string) (st : State) (e : WAError) :
  (createClient eng id st).1 = Err e -> (createClient eng id st).2 = st.
Proof.
  unfold createClient. destruct (clients st !! id); [discriminate|].
  destruct (initialize_ok eng id); [discriminate|done].
Qed.

(** The loop body of [restoreSessions]. *)
Definition restore_body (eng : Engine) (cfg : ClientModel) : M unit :=
  try_catch
    (existing ← Repo.getClientById (cm_id cfg) ;
     match existing with
     | None => Repo.createClient cfg
     | Some _ => mret tt
     end ;;
     createClient eng (cm_id cfg))
    (fun _ => mret tt).

Lemma restoreSessions_unfold (eng : Engine) (cfgs : list ClientModel) :
  restoreSessions eng cfgs = for_each (restore_body eng) cfgs.
Proof. reflexivity. Qed.

Lemma restore_body_effect (eng : Engine) (cfg : ClientModel) (st : State) :
  let st' := (restore_body eng cfg st).2 in
  (restore_body eng cfg st).1 = Ok tt /\
  is_Some (db st' !! cm_id cfg) /\
  (initialize_ok eng (cm_id cfg) = true -> is_Some (clients st' !! cm_id cfg)) /\
  (forall j, is_Some (db st !! j) -> is_Some (db st' !! j)) /\
  (forall j, is_Some (clients st !! j) -> is_Some (clients st' !! j)).
Proof.
  unfold restore_body, Repo.getClientById, Repo.createClient; unfold_monad. simpl.
  destruct (db st !! cm_id cfg) as [w|] eqn:Edb; simpl.
  - pose proof (createClient_db eng (cm_id cfg) st) as Hdb.
    pose proof (fun j => createClient_clients_mono eng (cm_id cfg) j st) as Hmono.
    pose proof (createClient_starts eng (cm_id cfg) st) as Hstart.
    destruct (createClient eng (cm_id cfg) st) as [r st1] eqn:Ec.
    simpl in Hdb, Hmono, Hstart.
    destruct r as [[]|e]; simpl; rewrite Hdb, Edb;
      (split; [done|]); (split; [eauto|]);
      (split; [intros Hi; apply (Hstart (or_introl Hi)) | ]);
      (split; [intros j Hj; exact Hj | exact Hmono]).
  - rewrite Edb. simpl.
    set (st1 := set_db (insert (cm_id cfg) (webhook_url cfg)) st).
    assert (Hins : forall j, is_Some (db st !! j) -> is_Some (db st1 !! j)).
    { intros j Hj. simpl. destruct (decide (j = cm_id cfg)) as [->|?];
        [rewrite lookup_insert_eq; eauto | rewrite lookup_insert_ne; auto]. }
    assert (Hself : is_Some (db st1 !! cm_id cfg)) by (simpl; rewrite lookup_insert_eq; eauto).
    pose proof (createClient_db eng (cm_id cfg) st1) as Hdb.
    pose proof (fun j => createClient_clients_mono eng (cm_id cfg) j st1) as Hmono.
    pose proof (createClient_starts eng (cm_id cfg) st1) as Hstart.
    destruct (createClient eng (cm_id cfg) st1) as [r st2] eqn:Ec.
    simpl in Hdb, Hmono, Hstart.
    destruct r as [[]|e]; simpl; rewrite Hdb;
      (split; [done|]); (split; [exact Hself|]);
      (split; [intros Hi; apply (Hstart (or_introl Hi)) | ]);
      (split; [exact Hins | exact Hmono]).
Qed.

Lemma restore_loop (eng : Engine) (cfgs : list ClientModel) (st : State) :
  let st' := (for_each (restore_body eng) cfgs st).2 in
  (for_each (restore_body eng) cfgs st).1 = Ok tt /\
  (forall cfg, cfg ∈ cfgs -> is_Some (db st' !! cm_id cfg)) /\
  (forall cfg, cfg ∈ cfgs -> initialize_ok eng (cm_id cfg) = true ->
     is_Some (clients st' !! cm_id cfg)) /\
  (forall j, is_Some (db st !! j) -> is_Some (db st' !! j)) /\
  (forall j, is_Some (clients st !! j) -> is_Some (clients st' !! j)).
Proof.
  revert st. induction cfgs as [|cfg cfgs IH]; intros st; cbv zeta.
  - simpl. split; [done|]. split; [intros ? Hin; apply elem_of_nil in Hin; done|].
    split; [intros ? Hin; apply elem_of_nil in Hin; done|]. auto.
  - destruct (restore_body_effect eng cfg st) as (Hok & Hself & Hstart & Hdb & Hcl).
    destruct (restore_body eng cfg st) as [r st1] eqn:Eb. simpl in Hok, Hself, Hstart, Hdb, Hcl.
    subst r.
    assert (E : for_each (restore_body eng) (cfg :: cfgs) st = for_each (restore_body eng) cfgs st1)
      by (cbn [for_each]; unfold mbind, M_bind; rewrite Eb; reflexivity).
    rewrite E.
    destruct (IH st1) as (Hok' & Hall & Hallc & Hdb' & Hcl').
    split; [exact Hok'|].
    split; [intros c Hin; apply elem_of_cons in Hin as [->|Hin]; auto|].
    split; [intros c Hin Hi; apply elem_of_cons in Hin as [->|Hin]; auto|].
    auto.
Qed.

Lemma initialize_loop (eng : Engine) (cs : list ClientModel) (st : State) :
  (forall c, c ∈ cs -> initialize_ok eng (cm_id c) = true) ->
  let st' := (for_each (fun c => createClient eng (cm_id c)) cs st).2 in
  (for_each (fun c => createClient eng (cm_id c)) cs st).1 = Ok tt /\
  (forall c, c ∈ cs -> is_Some (clients st' !! cm_id c)) /\
  (forall j, is_Some (clients st !! j) -> is_Some (clients st' !! j)) /\
  db st' = db st.
Proof.
  revert st. induction cs as [|c cs IH]; intros st Hall; cbv zeta.
  - simpl. split; [done|]. split; [intros ? Hin; apply elem_of_nil in Hin; done|]. auto.
  - assert (Hc : initialize_ok eng (cm_id c) = true) by (apply Hall; left).
    destruct (createClient_starts eng (cm_id c) st (or_introl Hc)) as [Hok Hs].
    pose proof (createClient_clients_mono eng (cm_id c)) as Hmono.
    pose proof (createClient_db eng (cm_id c) st) as Hdb.
    destruct (createClient eng (cm_id c) st) as [r st1] eqn:Ec. simpl in Hok, Hs, Hdb.
    subst r.
    assert (E : for_each (fun c => createClient eng (cm_id c)) (c :: cs) st =
                for_each (fun c => createClient eng (cm_id c)) cs st1)
      by (cbn [for_each]; unfold mbind, M_bind; rewrite Ec; reflexivity).
    rewrite E.
    destruct (IH st1) as (Hok' & Hin' & Hmono' & Hdb').
    { intros c' Hc'. apply Hall. right. exact Hc'. }
    split; [exact Hok'|].
    split; [intros c' Hin; apply elem_of_cons in Hin as [->|Hin]; auto|].
    split; [|congruence].
    intros j Hj. apply Hmono'. pose proof (Hmono j st Hj) as Hm. rewrite Ec in Hm. exact Hm.
Qed.

End LifecycleFacts.

(** ** Lifecycle properties *)

(** [addClient] on an id that already has a row throws Conflict before
    touching anything: the state is unchanged, so the table keeps exactly the
    one existing row. *)
Theorem addClient_conflict (eng : Engine) (id url w : string) (st : State)
  (Hrow : db st !! id = Some w) :
  addClient eng id url st = (Err EConflict, st).
Proof.
  unfold addClient, Repo.getClientById; unfold_monad. simpl. rewrite Hrow. reflexivity.
Qed.

Lemma addClient_conflict_witness :
  db st_row_no_handle !! "A"%string = Some "https://a/x"%string /\
  addClient eng_ok "A" "https://other" st_row_no_handle = (Err EConflict, st_row_no_handle).
Proof.
  split; [reflexivity|].
  apply (addClient_conflict eng_ok "A" "https://other" "https://a/x"). reflexivity.
Defined.

(** [addClient] on a new id whose handle starts (or is already live) resolves,
    stores the row with the given webhook, and leaves a live handle, so a
    following [getClientStatus] does not throw NotFound. *)
Theorem addClient_success (eng : Engine) (id url : string) (st : State)
  (Hnew : db st !! id = None)
  (Hstart : initialize_ok eng id = true \/ is_Some (clients st !! id)) :
  let st' := (addClient eng id url st).2 in
  (addClient eng id url st).1 = Ok tt /\
  db st' !! id = Some url /\
  is_Some (clients st' !! id) /\
  (getClientStatus id st').1 <> Err ENotFound.
Proof.
  unfold addClient; unfold_monad; autounfold with wrapper_simpl; unfold_monad.
  simpl. rewrite Hnew. simpl. rewrite Hnew. simpl.
  set (st1 := set_db (insert id url) st).
  assert (Hs1 : initialize_ok eng id = true \/ is_Some (clients st1 !! id)) by exact Hstart.
  destruct (LifecycleFacts.createClient_starts eng id st1 Hs1) as [Hok Hcl].
  pose proof (createClient_db eng id st1) as Hdb.
  destruct (createClient eng id st1) as [r st2] eqn:Ec. simpl in Hok, Hcl, Hdb. subst r.
  simpl. split; [done|]. split; [rewrite Hdb; simpl; apply lookup_insert_eq|].
  split; [exact Hcl|].
  unfold getClientStatus. destruct Hcl as [c Hc]. rewrite Hc.
  destruct (decide (is_Some (qrCodes st2 !! id))); [discriminate|].
  destruct (info c); discriminate.
Qed.

Lemma addClient_success_witness :
  db (mkState ∅ ∅ ∅ ∅) !! "A"%string = None /\
  (initialize_ok eng_ok "A" = true \/ is_Some (clients (mkState ∅ ∅ ∅ ∅) !! "A"%string)) /\
  db (addClient eng_ok "A" "https://a/x" (mkState ∅ ∅ ∅ ∅)).2 !! "A"%string
    = Some "https://a/x"%string.
Proof.
  split; [reflexivity|]. split; [left; reflexivity|].
  apply (addClient_success eng_ok "A" "https://a/x" (mkState ∅ ∅ ∅ ∅));
    [reflexivity | left; reflexivity].
Defined.

(** [removeClient] on a live session whose [client.destroy()] resolves
    removes its handle, its row, its cached QR and its session folder, and
    touches no other session; afterwards [getClientStatus] throws NotFound
    and a new [addClient] of the id no longer conflicts. *)
Theorem removeClient_success (eng : Engine) (id : string) (st : State) (c : Client)
  (Hc : clients st !! id = Some c) (Hd : destroy_ok eng id = true) :
  removeClient eng id st =
    (Ok tt, mkState (delete id (clients st)) (delete id (qrCodes st))
                    (delete id (db st)) (authDirs st ∖ {[ id ]})) /\
  (getClientStatus id (removeClient eng id st).2).1 = Err ENotFound /\
  db (removeClient eng id st).2 !! id = None.
Proof.
  assert (E : removeClient eng id st =
    (Ok tt, mkState (delete id (clients st)) (delete id (qrCodes st))
                    (delete id (db st)) (authDirs st ∖ {[ id ]}))).
  { unfold removeClient. rewrite Hc.
    unfold_monad; autounfold with wrapper_simpl; unfold_monad.
    rewrite Hd. reflexivity. }
  rewrite E. split; [reflexivity|]. simpl.
  unfold getClientStatus. simpl. rewrite !lookup_delete_eq. split; reflexivity.
Qed.

Lemma removeClient_success_witness :
  clients st_live !! "A"%string = Some (mkClient None) /\
  destroy_ok eng_ok "A" = true /\
  db (removeClient eng_ok "A" st_live).2 !! "A"%string = None.
Proof.
  split; [reflexivity|]. split; [reflexivity|].
  apply (removeClient_success eng_ok "A" st_live (mkClient None)); reflexivity.
Defined.

(** [restoreSessions] never throws; afterwards every config has a row (a
    row it created is kept even when the handle fails to start, unlike
    [addClient]), every config whose handle starts has a live handle, and
    no row or handle that existed before is lost. *)
Theorem restoreSessions_effect (eng : Engine) (cfgs : list ClientModel) (st : State) :
  let st' := (restoreSessions eng cfgs st).2 in
  (restoreSessions eng cfgs st).1 = Ok tt /\
  (forall cfg, cfg ∈ cfgs -> is_Some (db st' !! cm_id cfg)) /\
  (forall cfg, cfg ∈ cfgs -> initialize_ok eng (cm_id cfg) = true ->
     is_Some (clients st' !! cm_id cfg)) /\
  (forall j, is_Some (db st !! j) -> is_Some (db st' !! j)) /\
  (forall j, is_Some (clients st !! j) -> is_Some (clients st' !! j)).
Proof. rewrite LifecycleFacts.restoreSessions_unfold. apply LifecycleFacts.restore_loop. Qed.

(** [initialize] on a table all of whose sessions start resolves, leaves the
    table as it was, and gives every row a live handle. *)
Theorem initialize_all_start (eng : Engine) (st : State)
  (Hall : forall id w, db st !! id = Some w -> initialize_ok eng id = true) :
  let st' := (initialize eng st).2 in
  (initialize eng st).1 = Ok tt /\
  db st' = db st /\
  (forall id, is_Some (db st !! id) -> is_Some (clients st' !! id)).
Proof.
  set (rows := (fun kv : string * string => mkClientModel kv.1 kv.2) <$> map_to_list (db st)).
  assert (E : initialize eng st = for_each (fun c => createClient eng (cm_id c)) rows st)
    by reflexivity.
  assert (Hrows : forall c, c ∈ rows -> initialize_ok eng (cm_id c) = true).
  { intros c Hin. apply list_elem_of_fmap in Hin as [[k v] [-> Hkv]].
    apply elem_of_map_to_list in Hkv. simpl. exact (Hall k v Hkv). }
  destruct (LifecycleFacts.initialize_loop eng rows st Hrows) as (Hok & Hin & _ & Hdb).
  cbv zeta. rewrite E. split; [exact Hok|]. split; [exact Hdb|].
  intros id [w Hw].
  apply (Hin (mkClientModel id w)).
  apply list_elem_of_fmap. exists (id, w). split; [reflexivity|].
  apply elem_of_map_to_list. exact Hw.
Qed.

Lemma initialize_all_start_witness :
  (forall id w, db st_restart !! id = Some w -> initialize_ok eng_ok id = true) /\
  (initialize eng_ok st_restart).1 = Ok tt.
Proof.
  split; [intros; reflexivity|].
  apply (initialize_all_start eng_ok st_restart). intros; reflexivity.
Defined.

(** ** setWebhook *)

(** [setWebhook] on a live session resolves and touches only the
    [webhook_url] of the session's own row: the row, when there is one, now
    holds the new URL; without a row the update matches nothing and the call
    still resolves with the table unchanged; handles and QR codes are
    untouched. *)
Theorem setWebhook_live (id url : string) (st : State) (c : Client)
  (Hc : clients st !! id = Some c) :
  let st' := (setWebhook id url st).2 in
  (setWebhook id url st).1 = Ok tt /\
  clients st' = clients st /\ qrCodes st' = qrCodes st /\
  (forall w, db st !! id = Some w -> (getWebhookUrl id st').1 = Ok (Some url)) /\
  (db st !! id = None -> db st' = db st) /\
  (forall j, j <> id -> db st' !! j = db st !! j).
Proof.
  unfold setWebhook, getClientOrThrow, updateWebhook; unfold_monad. rewrite Hc. simpl.
  split; [reflexivity|]. split; [reflexivity|]. split; [reflexivity|].
  split; [|split].
  - intros w Hw. unfold getWebhookUrl, Repo.getClientById; unfold_monad. simpl.
    rewrite Hw, lookup_insert_eq. reflexivity.
  - intros Hn. rewrite Hn. reflexivity.
  - intros j Hj. destruct (db st !! id); [|reflexivity].
    apply lookup_insert_ne. congruence.
Qed.

Lemma setWebhook_live_witness :
  clients st_live !! "A"%string = Some (mkClient None) /\
  (setWebhook "A" "https://new/hook" st_live).1 = Ok tt.
Proof.
  split; [reflexivity|].
  apply (setWebhook_live "A" "https://new/hook" st_live (mkClient None)). reflexivity.
Defined.

(** [setWebhook] on an id without a live handle throws NotFound and does not
    update the database, even when the id has a row. *)
Theorem setWebhook_no_handle (id url : string) (st : State)
  (Hn : clients st !! id = None) :
  setWebhook id url st = (Err ENotFound, st).
Proof. unfold setWebhook, getClientOrThrow; unfold_monad. rewrite Hn. reflexivity. Qed.

Lemma setWebhook_no_handle_witness :
  clients st_row_no_handle !! "A"%string = None /\
  setWebhook "A" "https://new/hook" st_row_no_handle = (Err ENotFound, st_row_no_handle).
Proof.
  split; [reflexivity|]. apply setWebhook_no_handle. reflexivity.
Defined.

(** After [setWebhook id url] on a live session with a row, the next ['qr']
    event POSTs its notification to [url] and to nothing else, and at least
    once. *)
Theorem setWebhook_then_qr_posts_new_url (post : string -> nat -> bool)
  (id url w qr : string) (st : State) (c : Client)
  (Hc : clients st !! id = Some c) (Hw : db st !! id = Some w) (Hne : url <> ""%string) :
  let st' := (setWebhook id url st).2 in
  exists acts, onQr post id qr st' = (Ok acts, set_qrCodes (insert id qr) st') /\
    WebhookRetry.posted_urls acts <> [] /\
    Forall (eq url) (WebhookRetry.posted_urls acts).
Proof.
  cbv zeta.
  assert (E : (setWebhook id url st).2 = set_db (insert id url) st).
  { unfold setWebhook, getClientOrThrow, updateWebhook; unfold_monad.
    rewrite Hc. simpl. unfold set_db. rewrite Hw. reflexivity. }
  rewrite E.
  unfold onQr, WebhookRetry.notify, Repo.getClientById; unfold_monad. simpl.
  rewrite lookup_insert_eq. simpl. rewrite decide_False by done.
  eexists. split; [reflexivity|]. split.
  - simpl. destruct (post url 1%nat); discriminate.
  - exact (WebhookRetryFacts.sendWebhook_loop_posts_url post url 5 1).
Qed.

Lemma setWebhook_then_qr_posts_new_url_witness :
  clients st_live !! "A"%string = Some (mkClient None) /\
  db st_live !! "A"%string = Some "https://a/x"%string /\
  "https://new/hook"%string <> ""%string /\
  exists acts, onQr (fun _ _ => true) "A" "qr-data"
      (setWebhook "A" "https://new/hook" st_live).2 =
      (Ok acts, set_qrCodes (insert "A"%string "qr-data"%string)
                  (setWebhook "A" "https://new/hook" st_live).2) /\
    WebhookRetry.posted_urls acts <> [] /\
    Forall (eq "https://new/hook"%string) (WebhookRetry.posted_urls acts).
Proof.
  split; [reflexivity|]. split; [reflexivity|]. split; [discriminate|].
  apply (setWebhook_then_qr_posts_new_url (fun _ _ => true) "A" "https://new/hook"
           "https://a/x" "qr-data" st_live (mkClient None));
    [reflexivity | reflexivity | discriminate].
Defined.

(** ** listClients *)

Module ListingFacts.

(** The callback of [clientsInfo.map(client => ({ ... }))]. *)
Definition list_entry (c : ClientModel) : M ClientListEntry :=
  qr ← getQRCode (cm_id c) ;
  s ← getClientStatus (cm_id c) ;
  mret (mkClientListEntry (cm_id c) (webhook_url c) qr s).

Definition rows (st : State) : list ClientModel :=
  (fun kv : string * string => mkClientModel kv.1 kv.2) <$> map_to_list (db st).

Lemma listClients_unfold (st : State) :
  listClients st = map_M list_entry (rows st) st.
Proof. reflexivity. Qed.

Definition status_str (st : State) (id : string) : string :=
  match (getClientStatus id st).1 with Ok s => s | Err _ => ""%string end.

Definition entry_of (st : State) (c : ClientModel) : ClientListEntry :=
  mkClientListEntry (cm_id c) (webhook_url c) (qrCodes st !! cm_id c) (status_str st (cm_id c)).

Lemma list_entry_eq (c : ClientModel) (st : State) :
  list_entry c st =
    (match clients st !! cm_id c with
     | None => Err ENotFound
     | Some _ => Ok (entry_of st c)
     end, st).
Proof.
  unfold list_entry, entry_of, status_str, getQRCode; unfold_monad. simpl.
  unfold getClientStatus. destruct (clients st !! cm_id c) as [cl|]; [|reflexivity].
  destruct (decide (is_Some (qrCodes st !! cm_id c))); [reflexivity|].
  destruct (info cl); reflexivity.
Qed.

Lemma map_list_entry_ok (l : list ClientModel) (st : State) :
  (forall c, c ∈ l -> is_Some (clients st !! cm_id c)) ->
  map_M list_entry l st = (Ok (entry_of st <$> l), st).
Proof.
  induction l as [|a l IH]; intros Hl; [reflexivity|].
  cbn [map_M]. unfold mbind, M_bind. rewrite list_entry_eq.
  destruct (Hl a) as [x Hx]; [apply elem_of_cons; by left|]. rewrite Hx.
  rewrite IH; [reflexivity|]. intros c Hc. apply Hl. apply elem_of_cons. by right.
Qed.

Lemma map_list_entry_err (l : list ClientModel) (st : State) (c : ClientModel) :
  c ∈ l -> clients st !! cm_id c = None -> map_M list_entry l st = (Err ENotFound, st).
Proof.
  induction l as [|a l IH]; intros Hin Hn; [apply elem_of_nil in Hin; done|].
  cbn [map_M]. unfold mbind, M_bind. rewrite list_entry_eq.
  destruct (clients st !! cm_id a) as [x|] eqn:Ea; [|reflexivity].
  apply elem_of_cons in Hin as [->|Hin]; [congruence|].
  rewrite IH by done. reflexivity.
Qed.

Lemma status_str_live (st : State) (id : string) (cl : Client) :
  clients st !! id = Some cl ->
  status_str st id ∈ ["qr"; "listo"; "inicializando"]%string /\
  (status_str st id = "qr"%string <-> is_Some (qrCodes st !! id)).
Proof.
  intros H. unfold status_str, getClientStatus. rewrite H.
  destruct (decide (is_Some (qrCodes st !! id))) as [Hq|Hq].
  - simpl. split; [left|]; tauto.
  - destruct (info cl); simpl.
    + split; [right; left|]. split; [discriminate|tauto].
    + split; [right; right; left|]. split; [discriminate|tauto].
Qed.

End ListingFacts.

(** [listClients] over a table all of whose rows have a live handle resolves
    without touching the state, with one entry per row in the order of
    [listAllClients]; each entry carries the row's webhook and cached QR, and
    its status is one of ["qr"], ["listo"], ["inicializando"], being ["qr"]
    exactly when a QR is listed. *)
Theorem listClients_all_live (st : State)
  (Hall : forall id w, db st !! id = Some w -> is_Some (clients st !! id)) :
  (listClients st).2 = st /\
  exists es, (listClients st).1 = Ok es /\
    le_id <$> es = fst <$> map_to_list (db st) /\
    Forall (fun e =>
      db st !! le_id e = Some (le_webhookUrl e) /\
      le_qr e = qrCodes st !! le_id e /\
      le_status e ∈ ["qr"; "listo"; "inicializando"]%string /\
      (le_status e = "qr"%string <-> is_Some (le_qr e))) es.
Proof.
  rewrite ListingFacts.listClients_unfold.
  rewrite ListingFacts.map_list_entry_ok.
  2:{ intros c Hin. unfold ListingFacts.rows in Hin. apply list_elem_of_fmap in Hin as [[k v] [-> Hkv]].
      apply elem_of_map_to_list in Hkv. exact (Hall k v Hkv). }
  split; [reflexivity|]. eexists. split; [reflexivity|]. split.
  - unfold ListingFacts.rows. rewrite <- !list_fmap_compose. apply list_fmap_ext. intros i [k v] _. reflexivity.
  - apply Forall_forall. intros e He.
    apply list_elem_of_fmap in He as [c [-> Hc]].
    unfold ListingFacts.rows in Hc. apply list_elem_of_fmap in Hc as [[k v] [-> Hkv]].
    apply elem_of_map_to_list in Hkv. simpl.
    destruct (Hall k v Hkv) as [cl Hcl].
    destruct (ListingFacts.status_str_live st k cl Hcl) as [Hs1 Hs2].
    split; [exact Hkv|]. split; [reflexivity|]. split; [exact Hs1|exact Hs2].
Qed.

Lemma listClients_all_live_witness :
  (forall id w, db st_live !! id = Some w -> is_Some (clients st_live !! id)) /\
  (listClients st_live).2 = st_live.
Proof.
  assert (H : forall id w, db st_live !! id = Some w -> is_Some (clients st_live !! id)).
  { intros id w Hw. unfold st_live in *; simpl in *.
    destruct (decide (id = "A"%string)) as [->|Hne]; [eexists; reflexivity|].
    rewrite lookup_insert_ne in Hw by congruence. done. }
  split; [exact H|]. apply (listClients_all_live st_live H).
Defined.

(** [listClients] throws NotFound as soon as the table has a row whose
    session has no live handle (the [getClientStatus] inside the [map]
    throws), and changes nothing. *)
Theorem listClients_orphan_row (st : State) (id w : string)
  (Hrow : db st !! id = Some w) (Hn : clients st !! id = None) :
  listClients st = (Err ENotFound, st).
Proof.
  rewrite ListingFacts.listClients_unfold.
  apply (ListingFacts.map_list_entry_err _ _ (mkClientModel id w)); [|exact Hn].
  apply list_elem_of_fmap. exists (id, w). split; [reflexivity|].
  apply elem_of_map_to_list. exact Hrow.
Qed.

Lemma listClients_orphan_row_witness :
  db st_row_no_handle !! "A"%string = Some "https://a/x"%string /\
  clients st_row_no_handle !! "A"%string = None /\
  listClients st_row_no_handle = (Err ENotFound, st_row_no_handle).
Proof.
  split; [reflexivity|]. split; [reflexivity|].
  apply (listClients_orphan_row st_row_no_handle "A" "https://a/x"); reflexivity.
Defined.

(** ** The 'qr' and 'ready' handlers *)

Module HandlerFacts.

Lemma status_with_qr (id : string) (st : State) (c : Client) :
  clients st !! id = Some c -> is_Some (qrCodes st !! id) ->
  getClientStatus id st = (Ok "qr"%string, st).
Proof.
  intros Hc Hq. unfold getClientStatus. rewrite Hc, decide_True by exact Hq. reflexivity.
Qed.

Lemma status_without_qr (id : string) (st : State) (c : Client) :
  clients st !! id = Some c -> qrCodes st !! id = None ->
  getClientStatus id st =
    (Ok (match info c with Some _ => "listo"%string | None => "inicializando"%string end), st).
Proof.
  intros Hc Hq. unfold getClientStatus. rewrite Hc, decide_False by (rewrite Hq; apply is_Some_None).
  destruct (info c); reflexivity.
Qed.

Lemma sendMessage_status (eng : Engine) (id to msg : string) (st : State) (c : Client) (s : string) :
  clients st !! id = Some c -> getClientStatus id st = (Ok s, st) ->
  sendMessage eng id to msg st =
    if decide (s = "qr"%string) then (Err ENotReady, st)
    else try_catch (engineSend eng id to (TextContent msg)) throw st.
Proof.
  intros Hc Hs. unfold sendMessage, getClientOrThrow. unfold mbind, M_bind.
  rewrite Hc, Hs. destruct (decide (s = "qr"%string)); reflexivity.
Qed.

End HandlerFacts.

(** After a ['qr'] event of a live session, its QR is cached (and answered
    by [getQRCode]), its status is ["qr"], and [sendMessage] refuses with
    NotReady for every destination and text; the handler itself resolves
    whatever the webhook does, and changes nothing else. *)
Theorem onQr_effect (eng : Engine) (post : string -> nat -> bool)
  (id qr : string) (st : State) (c : Client)
  (Hc : clients st !! id = Some c) :
  let st' := (onQr post id qr st).2 in
  st' = set_qrCodes (insert id qr) st /\
  (exists acts, (onQr post id qr st).1 = Ok acts) /\
  getQRCode id st' = (Ok (Some qr), st') /\
  (getClientStatus id st').1 = Ok "qr"%string /\
  (forall to msg, (sendMessage eng id to msg st').1 = Err ENotReady).
Proof.
  assert (E : onQr post id qr st =
    WebhookRetry.notify post id (set_qrCodes (insert id qr) st)) by reflexivity.
  cbv zeta. rewrite E, WebhookRetryFacts.notify_state.
  split; [reflexivity|]. split.
  - unfold WebhookRetry.notify, Repo.getClientById; unfold_monad. simpl.
    destruct (db st !! id) as [w|]; simpl; [|eauto].
    destruct (decide (w = ""%string)); simpl; eauto.
  - assert (Hq : qrCodes (set_qrCodes (insert id qr) st) !! id = Some qr)
      by (unfold set_qrCodes; cbn [qrCodes]; apply lookup_insert_eq).
    assert (Hc' : clients (set_qrCodes (insert id qr) st) !! id = Some c) by exact Hc.
    assert (Hs : getClientStatus id (set_qrCodes (insert id qr) st) =
                 (Ok "qr"%string, set_qrCodes (insert id qr) st))
      by (apply (HandlerFacts.status_with_qr _ _ c Hc'); rewrite Hq; eauto).
    split; [unfold getQRCode, gets; rewrite Hq; reflexivity|].
    rewrite Hs. split; [reflexivity|].
    intros to msg. rewrite (HandlerFacts.sendMessage_status eng id to msg _ c _ Hc' Hs).
    reflexivity.
Qed.

Lemma onQr_effect_witness :
  clients st_ready !! "A"%string = Some (mkClient (Some "me"%string)) /\
  (getClientStatus "A" (onQr (fun _ _ => false) "A" "qr2" st_ready).2).1 = Ok "qr"%string.
Proof.
  split; [reflexivity|].
  apply (onQr_effect eng_ok (fun _ _ => false) "A" "qr2" st_ready (mkClient (Some "me"%string))).
  reflexivity.
Defined.

(** After a ['ready'] event of a live session, no QR is cached any more,
    its status is no longer ["qr"] (["listo"] once [client.info] is set), and
    [sendMessage] is decided by the engine alone; the handler resolves
    whatever the webhook does, and changes nothing else. *)
Theorem onReady_effect (eng : Engine) (post : string -> nat -> bool)
  (id : string) (st : State) (c : Client)
  (Hc : clients st !! id = Some c) :
  let st' := (onReady post id st).2 in
  st' = set_qrCodes (delete id) st /\
  (exists acts, (onReady post id st).1 = Ok acts) /\
  getQRCode id st' = (Ok None, st') /\
  (getClientStatus id st').1 =
    Ok (match info c with Some _ => "listo"%string | None => "inicializando"%string end) /\
  (forall to msg, (sendMessage eng id to msg st').1 =
     if send_ok eng id to (TextContent msg) then Ok tt else Err EEngine).
Proof.
  assert (E : onReady post id st =
    WebhookRetry.notify post id (set_qrCodes (delete id) st)) by reflexivity.
  cbv zeta. rewrite E, WebhookRetryFacts.notify_state.
  split; [reflexivity|]. split.
  - unfold WebhookRetry.notify, Repo.getClientById; unfold_monad. simpl.
    destruct (db st !! id) as [w|]; simpl; [|eauto].
    destruct (decide (w = ""%string)); simpl; eauto.
  - assert (Hq : qrCodes (set_qrCodes (delete id) st) !! id = None)
      by (unfold set_qrCodes; cbn [qrCodes]; apply lookup_delete_eq).
    assert (Hc' : clients (set_qrCodes (delete id) st) !! id = Some c) by exact Hc.
    pose proof (HandlerFacts.status_without_qr _ _ c Hc' Hq) as Hs.
    split; [unfold getQRCode, gets; rewrite Hq; reflexivity|].
    rewrite Hs. split; [reflexivity|].
    intros to msg. rewrite (HandlerFacts.sendMessage_status eng id to msg _ c _ Hc' Hs).
    rewrite decide_False by (destruct (info c); discriminate).
    unfold try_catch, engineSend. unfold_monad.
    destruct (send_ok eng id to (TextContent msg)); reflexivity.
Qed.

Lemma onReady_effect_witness :
  clients st_live !! "A"%string = Some (mkClient None) /\
  (getClientStatus "A" (onReady (fun _ _ => true) "A" st_live).2).1 = Ok "inicializando"%string.
Proof.
  split; [reflexivity|].
  apply (onReady_effect eng_ok (fun _ _ => true) "A" st_live (mkClient None)). reflexivity.
Defined.

(** ** reactToMessage ([unnamed/part_003]) *)

(** [reactToMessage] never rejects and never changes the wrapper's state;
    it reacts (on [messageId] itself) exactly when the session has a live
    handle, its chat with [contactId] is found, [messageId] is among the 50
    messages fetched, and [message.react] resolves; in every other case the
    error is swallowed. *)
Theorem reactToMessage_swallows (ce : ChatEngine) (id contactId messageId reaction : string)
  (st : State) :
  exists o, reactToMessage ce id contactId messageId reaction st = (Ok o, st) /\
    (o = None \/ o = Some messageId) /\
    (o = Some messageId <->
       is_Some (clients st !! id) /\
       (exists msgs, fetchLast50 ce id contactId = Some msgs /\ messageId ∈ msgs) /\
       react_ok ce messageId reaction = true).
Proof.
  unfold reactToMessage, getClientOrThrow; unfold_monad.
  destruct (clients st !! id) as [cl|] eqn:Ec.
  2:{ exists None. split; [reflexivity|]. split; [by left|].
      split; [discriminate|]. intros [[x Hx] _]. discriminate. }
  destruct (fetchLast50 ce id contactId) as [msgs|] eqn:Ef.
  2:{ exists None. split; [reflexivity|]. split; [by left|].
      split; [discriminate|]. intros (_ & [ms [Hms _]] & _). discriminate. }
  destruct (decide (messageId ∈ msgs)) as [Hin|Hnin].
  2:{ exists None. split; [reflexivity|]. split; [by left|].
      split; [discriminate|]. intros (_ & [ms [Hms Hin]] & _). injection Hms as <-. done. }
  destruct (react_ok ce messageId reaction) eqn:Er.
  - exists (Some messageId). split; [reflexivity|]. split; [by right|].
    split; [|reflexivity]. intros _. split; [eauto|]. split; [eauto|reflexivity].
  - exists None. split; [reflexivity|]. split; [by left|].
    split; [discriminate|]. intros (_ & _ & H). discriminate.
Qed.

(** ** cleanBase64Data and convertToOggOpus *)

Module AudioFacts.
Import Audio.

Lemma string_has_append (c : ascii) (s t : string) :
  string_has c (String.append s t) = string_has c s || string_has c t.
Proof. induction s as [|a s IH]; simpl; [reflexivity|]. rewrite IH. apply orb_assoc. Qed.

Lemma string_has_drop (c : ascii) (n : nat) (s : string) :
  string_has c s = false -> string_has c (drop_chars n s) = false.
Proof.
  revert s. induction n as [|n IH]; intros s H; [exact H|].
  destruct s as [|a s]; simpl; [reflexivity|].
  simpl in H. apply orb_false_iff in H as [_ H]. apply IH, H.
Qed.

Lemma after_last_marker_cons (a : ascii) (r : string) :
  after_last_marker (String a r) =
    let here := if is_prefix ";base64," (String a r) then Some (drop_chars 8 (String a r)) else None in
    if is_line_terminator a then here
    else match after_last_marker r with Some q => Some q | None => here end.
Proof. reflexivity. Qed.

Lemma after_last_marker_none (q : string) :
  string_has ";"%char q = false -> after_last_marker q = None.
Proof.
  induction q as [|a q IH]; intros H; [reflexivity|].
  simpl in H. apply orb_false_iff in H as [Ha Hq].
  assert (Hp : is_prefix ";base64," (String a q) = false).
  { change (Ascii.eqb ";" a && is_prefix "base64," q = false).
    rewrite Ascii.eqb_sym, Ha. reflexivity. }
  rewrite after_last_marker_cons. cbv zeta. rewrite Hp, (IH Hq).
  destruct (is_line_terminator a); reflexivity.
Qed.

Lemma after_last_marker_app (p q : string) :
  string_has "010"%char p = false -> string_has "013"%char p = false ->
  string_has ";"%char q = false ->
  after_last_marker (String.append p (String.append ";base64," q)) = Some q.
Proof.
  intros Hn Hr Hq. induction p as [|a p IH].
  - change (String.append "" (String.append ";base64," q))
      with (String ";" (String.append "base64," q)).
    rewrite after_last_marker_cons. cbv zeta.
    rewrite (after_last_marker_none (String.append "base64," q)); [reflexivity|].
    rewrite string_has_append. rewrite Hq. reflexivity.
  - simpl in Hn, Hr. apply orb_false_iff in Hn as [Hna Hn].
    apply orb_false_iff in Hr as [Hra Hr].
    change (String.append (String a p) (String.append ";base64," q))
      with (String a (String.append p (String.append ";base64," q))).
    rewrite after_last_marker_cons. cbv zeta. unfold is_line_terminator.
    rewrite Hna, Hra.
    rewrite (IH Hn Hr). reflexivity.
Qed.

Lemma cleanBase64Data_data (r : string) :
  cleanBase64Data (String.append "data:" r) =
    match after_last_marker r with
    | Some q => q
    | None => String.append "data:" r
    end.
Proof. reflexivity. Qed.

End AudioFacts.

(** [cleanBase64Data] strips a data-URL header: for a media type [p] without
    line terminators and a payload [q] without ';' (true of every base64
    text), ["data:" ++ p ++ ";base64," ++ q] becomes [q]; and a text without
    ';' (a bare base64 payload) is returned unchanged. *)
Theorem cleanBase64Data_strips_header (p q : string)
  (Hn : string_has "010"%char p = false) (Hr : string_has "013"%char p = false)
  (Hq : string_has ";"%char q = false) :
  Audio.cleanBase64Data (String.append "data:" (String.append p (String.append ";base64," q))) = q /\
  Audio.cleanBase64Data q = q.
Proof.
  split.
  - rewrite AudioFacts.cleanBase64Data_data, AudioFacts.after_last_marker_app by assumption.
    reflexivity.
  - unfold Audio.cleanBase64Data. destruct (Audio.is_prefix "data:" q); [|reflexivity].
    rewrite AudioFacts.after_last_marker_none; [reflexivity|].
    apply AudioFacts.string_has_drop, Hq.
Qed.

Lemma cleanBase64Data_strips_header_witness :
  Audio.cleanBase64Data "data:audio/ogg; codecs=opus;base64,T2dnUw==" = "T2dnUw=="%string.
Proof.
  apply (cleanBase64Data_strips_header "audio/ogg; codecs=opus" "T2dnUw==");
    reflexivity.
Defined.

(** [convertToOggOpus] rejects with "empty buffer" without running ffmpeg
    when the payload is empty: for the empty text and for a bare data-URL
    header, whatever the MIME type and whatever ffmpeg would do. *)
Theorem convertToOggOpus_empty_payload
  (ffmpeg : option string -> list Z -> option (list Z)) (m p : string)
  (Hn : string_has "010"%char p = false) (Hr : string_has "013"%char p = false) :
  Audio.convertToOggOpus ffmpeg m "" = Err EEmptyInput /\
  Audio.convertToOggOpus ffmpeg m (String.append "data:" (String.append p ";base64,")) = Err EEmptyInput.
Proof.
  split; [reflexivity|].
  unfold Audio.convertToOggOpus.
  replace (String.append p ";base64,") with (String.append p (String.append ";base64," ""))
    by (f_equal; reflexivity).
  rewrite (proj1 (cleanBase64Data_strips_header p "" Hn Hr eq_refl)). reflexivity.
Qed.

Lemma convertToOggOpus_empty_payload_witness :
  Audio.convertToOggOpus (fun _ l => Some l) "audio/mpeg" "data:audio/mpeg;base64,"
    = Err EEmptyInput.
Proof.
  apply (convertToOggOpus_empty_payload (fun _ l => Some l) "audio/mpeg" "audio/mpeg");
    reflexivity.
Defined.

(** ** Webhook destinations *)

Module SplitFacts.

Lemma split_on_nonempty (c : ascii) (s : string) :
  exists cur rest, WebhookFanout.split_on c s = cur :: rest.
Proof.
  induction s as [|a s IH]; [eexists _, _; reflexivity|].
  destruct IH as (cur & rest & E). simpl. rewrite E.
  destruct (Ascii.eqb a c); eexists _, _; reflexivity.
Qed.

Lemma join_on_cons (c : ascii) (x y : string) (l : list string) :
  join_on c (x :: y :: l) = String.append x (String c (join_on c (y :: l))).
Proof. reflexivity. Qed.

Lemma join_split (c : ascii) (s : string) :
  join_on c (WebhookFanout.split_on c s) = s.
Proof.
  induction s as [|a s IH]; [reflexivity|].
  destruct (split_on_nonempty c s) as (cur & rest & E).
  simpl. rewrite E. rewrite E in IH.
  destruct (Ascii.eqb a c) eqn:Ea.
  - apply Ascii.eqb_eq in Ea as ->. rewrite join_on_cons, IH. reflexivity.
  - destruct rest as [|y rest].
    + simpl in IH |- *. rewrite IH. reflexivity.
    + rewrite join_on_cons. rewrite join_on_cons in IH. rewrite <- IH. reflexivity.
Qed.

Lemma split_pieces (c : ascii) (s : string) :
  Forall (fun u => string_has c u = false) (WebhookFanout.split_on c s).
Proof.
  induction s as [|a s IH]; [repeat constructor|].
  destruct (split_on_nonempty c s) as (cur & rest & E).
  simpl. rewrite E. rewrite E in IH. apply Forall_cons in IH as [Hcur Hrest].
  destruct (Ascii.eqb a c) eqn:Ea.
  - constructor; [reflexivity|]. constructor; assumption.
  - constructor; [|assumption]. simpl. rewrite Ea, Hcur. reflexivity.
Qed.

End SplitFacts.

(** The '|'-fan-out of a live session with a non-empty webhook resolves
    without touching the state and starts one POST per piece: the pieces
    contain no '|' and joined with '|' give back the stored value, and each
    delivery's outcome is its own POST's, whatever the others do. *)
Theorem fanout_pieces (post1 : string -> bool) (st : State) (id w : string) (c : Client)
  (Hc : clients st !! id = Some c) (Hw : db st !! id = Some w) (Hne : w <> ""%string) :
  exists ds, WebhookFanout.sendWebhook post1 id st = (Ok ds, st) /\
    join_on "|" (WebhookFanout.d_url <$> ds) = w /\
    Forall (fun d => string_has "|" (WebhookFanout.d_url d) = false) ds /\
    Forall (fun d => WebhookFanout.d_ok d = post1 (WebhookFanout.d_url d)) ds.
Proof.
  unfold WebhookFanout.sendWebhook. rewrite Hc, Hw, decide_False by done.
  eexists. split; [reflexivity|].
  split; [|split].
  - rewrite <- list_fmap_compose, list_fmap_id. apply SplitFacts.join_split.
  - apply Forall_fmap. eapply Forall_impl; [apply SplitFacts.split_pieces|]. done.
  - apply Forall_fmap. apply Forall_forall. intros u _. reflexivity.
Qed.

Lemma fanout_pieces_witness :
  clients st_pipe !! "A"%string = Some (mkClient None) /\
  db st_pipe !! "A"%string = Some "https://a/x|https://b/y"%string /\
  exists ds, WebhookFanout.sendWebhook (fun _ => false) "A" st_pipe = (Ok ds, st_pipe) /\
    join_on "|" (WebhookFanout.d_url <$> ds) = "https://a/x|https://b/y"%string /\
    Forall (fun d => string_has "|" (WebhookFanout.d_url d) = false) ds /\
    Forall (fun d => WebhookFanout.d_ok d = false) ds.
Proof.
  split; [reflexivity|]. split; [reflexivity|].
  apply (fanout_pieces (fun _ => false) st_pipe "A" "https://a/x|https://b/y" (mkClient None));
    [reflexivity | reflexivity | discriminate].
Defined.

(** The '|'-fan-out never rejects and never changes the state; it starts no
    POST exactly when the session has no live handle, no row, or an empty
    webhook. *)
Theorem fanout_silent_cases (post1 : string -> bool) (id : string) (st : State) :
  exists ds, WebhookFanout.sendWebhook post1 id st = (Ok ds, st) /\
    (ds = [] <-> clients st !! id = None \/ db st !! id = None \/ db st !! id = Some ""%string).
Proof.
  unfold WebhookFanout.sendWebhook.
  destruct (clients st !! id) as [cl|] eqn:Ec.
  2:{ eexists. split; [reflexivity|]. tauto. }
  destruct (db st !! id) as [w|] eqn:Ew.
  2:{ eexists. split; [reflexivity|]. tauto. }
  destruct (decide (w = ""%string)) as [->|Hne].
  { eexists. split; [reflexivity|]. tauto. }
  eexists. split; [reflexivity|].
  destruct (SplitFacts.split_on_nonempty "|" w) as (cur & rest & E). rewrite E.
  split; [discriminate|]. intros [H|[H|H]]; [discriminate|discriminate|congruence].
Qed.

(** The retrying notification of an event ([src/src]) never rejects and
    never changes the state; it makes no POST exactly when the session has
    no row or an empty webhook (no live handle is needed), and otherwise its
    first action is the first POST to that webhook. *)
Theorem notify_silent_cases (post : string -> nat -> bool) (id : string) (st : State) :
  exists acts, WebhookRetry.notify post id st = (Ok acts, st) /\
    (acts = [] <-> db st !! id = None \/ db st !! id = Some ""%string) /\
    (forall w, db st !! id = Some w -> w <> ""%string ->
       head acts = Some (WebhookRetry.Post w 1%nat)).
Proof.
  unfold WebhookRetry.notify, Repo.getClientById; unfold_monad. simpl.
  destruct (db st !! id) as [w|] eqn:Ew.
  2:{ eexists. split; [reflexivity|]. split; [tauto|]. intros; discriminate. }
  simpl. destruct (decide (w = ""%string)) as [->|Hne].
  { eexists. split; [reflexivity|]. split; [tauto|]. intros w' Hw' Hne'. congruence. }
  eexists. split; [reflexivity|]. split.
  - simpl. split; [discriminate|]. intros [H|H]; congruence.
  - intros w' Hw' _. injection Hw' as <-. reflexivity.
Qed.

(** ** Composition of the lifecycle operations *)

(** Adding a fresh session and removing it again (both engine calls
    resolving) gives back exactly the state before: [removeClient] undoes
    every effect of [addClient]. *)
Theorem addClient_removeClient_roundtrip (eng : Engine) (id url : string) (st : State)
  (Hdb : db st !! id = None) (Hcl : clients st !! id = None)
  (Hqr : qrCodes st !! id = None) (Hdir : id ∉ authDirs st)
  (Hinit : initialize_ok eng id = true) (Hdes : destroy_ok eng id = true) :
  (addClient eng id url st).1 = Ok tt /\
  removeClient eng id (addClient eng id url st).2 = (Ok tt, st).
Proof.
  assert (Ea : addClient eng id url st =
    (Ok tt, set_clients (insert id (mkClient (initial_info eng id))) (set_db (insert id url) st))).
  { unfold addClient; unfold_monad; autounfold with wrapper_simpl; unfold_monad.
    simpl. rewrite Hdb. simpl. rewrite Hdb. simpl.
    unfold createClient. simpl. rewrite Hcl, Hinit. reflexivity. }
  rewrite Ea. split; [reflexivity|]. cbn [snd].
  destruct (removeClient_success eng id
              (set_clients (insert id (mkClient (initial_info eng id))) (set_db (insert id url) st))
              (mkClient (initial_info eng id)))
    as [E _]; [apply lookup_insert_eq | exact Hdes |].
  rewrite E. destruct st as [cl q d a]. simpl in *. repeat f_equal.
  - apply delete_insert_id. exact Hcl.
  - apply delete_id. exact Hqr.
  - apply delete_insert_id. exact Hdb.
  - apply leibniz_equiv. set_solver.
Qed.

Lemma addClient_removeClient_roundtrip_witness :
  removeClient eng_ok "A" (addClient eng_ok "A" "https://a/x" (mkState ∅ ∅ ∅ ∅)).2
    = (Ok tt, mkState ∅ ∅ ∅ ∅).
Proof.
  apply (addClient_removeClient_roundtrip eng_ok "A" "https://a/x" (mkState ∅ ∅ ∅ ∅));
    try reflexivity.
  apply not_elem_of_empty.
Defined.

(** The three send operations never change the wrapper's state: no handle,
    QR, row or session folder is touched, whether they resolve or reject. *)
Theorem senders_read_only (eng : Engine) (ffmpeg : option string -> list Z -> option (list Z))
  (id to msg mimeType b64 : string) (media : MessageMedia) (caption : option string)
  (st : State) :
  (sendMessage eng id to msg st).2 = st /\
  (sendMedia eng id to media caption st).2 = st /\
  (sendAudioAsVoice eng ffmpeg id to mimeType b64 st).2 = st.
Proof.
  unfold sendMessage, sendMedia, sendAudioAsVoice, getClientOrThrow, getClientStatus, engineSend;
    unfold_monad.
  destruct (clients st !! id) as [c|] eqn:Ec; [|repeat split].
  cbv beta iota zeta. rewrite Ec.
  split; [|split].
  - destruct (decide (is_Some (qrCodes st !! id))); simpl; [reflexivity|].
    destruct (info c); simpl; destruct (send_ok eng id to (TextContent msg)); reflexivity.
  - destruct (send_ok eng id to (MediaContent media caption)); reflexivity.
  - destruct (Audio.convertToOggOpus ffmpeg b64 mimeType); [|reflexivity].
    destruct (send_ok _ _ _ _); reflexivity.
Qed.

(** The [POST /clients/:id/send-audio-as-voice] route ([unnamed/part_002]):
    the answer sent with [res.json] / [res.status(400).json]. *)
Inductive HttpResponse :=
  | Res200 (message : string)
  | Res400 (error : WAError)
  | Res400Validation.                          (* celebrate / Joi *)

Definition route_sendAudioAsVoice (eng : Engine) (ffmpeg : option string -> list Z -> option (list Z))
  (id to mimeType audioBase64 : string) : M HttpResponse :=
  (* Joi.string().required() refuses a missing or empty string *)
  if decide (id = ""%string \/ to = ""%string \/ mimeType = ""%string \/ audioBase64 = ""%string)
  then mret Res400Validation
  else
    try_catch
      (sendAudioAsVoice eng ffmpeg id to audioBase64 mimeType ;;
       mret (Res200 (String.append "Audio sent to " (String.append to
               (String.append " from client " (String.append id "."))))))
      (fun e => mret (Res400 e)).

(** Through the HTTP route the two argument swaps cancel: for validated
    input, the route answers 200 exactly when the voice note is sent with
    [mimeType] as the conversion hint and [audioBase64] as its data (the
    spec's reading), answers 400 with that error otherwise, and never
    rejects. *)
Theorem route_sendAudioAsVoice_spec_order (eng : Engine)
  (ffmpeg : option string -> list Z -> option (list Z)) (id to mimeType audioBase64 : string)
  (st : State)
  (Hid : id <> ""%string) (Hto : to <> ""%string)
  (Hm : mimeType <> ""%string) (Hb : audioBase64 <> ""%string) :
  route_sendAudioAsVoice eng ffmpeg id to mimeType audioBase64 st =
    match sendVoiceNote_spec eng ffmpeg id to mimeType audioBase64 st with
    | (Ok _, st') =>
        (Ok (Res200 (String.append "Audio sent to " (String.append to
               (String.append " from client " (String.append id "."))))), st')
    | (Err e, st') => (Ok (Res400 e), st')
    end.
Proof.
  unfold route_sendAudioAsVoice. rewrite decide_False by tauto.
  unfold try_catch, mbind, M_bind, mret, M_ret.
  change (sendAudioAsVoice eng ffmpeg id to audioBase64 mimeType st)
    with (sendVoiceNote_spec eng ffmpeg id to mimeType audioBase64 st).
  destruct (sendVoiceNote_spec eng ffmpeg id to mimeType audioBase64 st) as [[[]|e] st'];
    reflexivity.
Qed.

Lemma route_sendAudioAsVoice_spec_order_witness :
  route_sendAudioAsVoice eng_ok ffmpeg_mp3 "A" "me" "audio/mpeg" "SUQzBAA=" st_ready =
    match sendVoiceNote_spec eng_ok ffmpeg_mp3 "A" "me" "audio/mpeg" "SUQzBAA=" st_ready with
    | (Ok _, st') =>
        (Ok (Res200 (String.append "Audio sent to " (String.append "me"
               (String.append " from client " (String.append "A" "."))))), st')
    | (Err e, st') => (Ok (Res400 e), st')
    end.
Proof.
  apply route_sendAudioAsVoice_spec_order; discriminate.
Defined.
